(** * Franstrack marketing site: the client-side presentation state machine

    A shallow embedding of the stateful parts of [src/App.tsx]: the cookie
    banner ([CookieBanner]), the JSON-LD emitter ([JsonLD]), the scroll
    observer of the navigation bar ([Nav]) and the billing-cycle toggle of
    the pricing section ([Pricing]); and of what the markup computes: the
    class-name utility [cx], the primitives [Container], [Card] and
    [Button], and the cards of the pricing grid.

    React hooks are modelled by explicit state passing.  A component
    instance owns the cells created by its [useState] calls; the browser
    (the [localStorage] area and the [window] event target) is threaded
    through every effect and event handler.  JavaScript exceptions are
    modelled by abrupt completions that leave every mutation done so far
    in place. *)

From Stdlib Require Import QArith Ascii String.
From stdpp Require Import gmap strings list.

Local Open Scope string_scope.

(** ** JavaScript values used by the page *)

(** The exceptions the Web Storage API raises: [SecurityError] when the
    origin is denied access to storage, [QuotaExceededError] when a write
    does not fit. *)
Inductive DOMException := SecurityError | QuotaExceededError.

(** Result of running a statement list: it runs to its end, or an
    exception leaves it. *)
Inductive completion (A : Type) :=
  | Normal (a : A)
  | Throw (e : DOMException).
Arguments Normal {A} a.
Arguments Throw {A} e.

(** [ToBoolean] on a value of type [string | null], the result type of
    [Storage.getItem]: [null] and the empty string are falsy. *)
Definition ToBoolean (v : option string) : bool :=
  match v with
  | None => false
  | Some EmptyString => false
  | Some (String _ _) => true
  end.

(** The unary [!] operator. *)
Definition js_not (v : option string) : bool := negb (ToBoolean v).

(** ** The browser *)

(** A [Storage] area. [getItem_raises] and [setItem_raises] describe the
    environment: when set, the corresponding call throws instead of
    touching [items]. *)
Record Storage := {
  items : gmap string string;
  getItem_raises : option DOMException;
  setItem_raises : option DOMException
}.

(** An entry of an event target's listener list. Callbacks are closures,
    compared by identity; [callback] is the identity of the closure. *)
Record EventListener := {
  type : string;
  callback : nat
}.

Global Instance EventListener_eq_dec : EqDecision EventListener.
Proof. solve_decision. Defined.

(** The [window] object: scroll offset, listener list, and the allocator
    of closure identities ([next_closure] is the first unused one). *)
Record Window := {
  scrollY : Q;
  listeners : list EventListener;
  next_closure : nat
}.

(** [isBrowser] is the module-level constant
    [typeof window !== "undefined" && typeof document !== "undefined"]. *)
Record Env := {
  isBrowser : bool;
  localStorage : Storage;
  window : Window
}.

Definition with_localStorage (s : Storage) (e : Env) : Env :=
  {| isBrowser := isBrowser e; localStorage := s; window := window e |}.

Definition with_window (w : Window) (e : Env) : Env :=
  {| isBrowser := isBrowser e; localStorage := localStorage e; window := w |}.

(** ** Effects: state passing with exceptions *)

(** A computation over the browser [Env] and the state cells [C] of one
    component instance. An exception does not roll anything back. *)
Definition JS (C A : Type) : Type := Env * C -> completion A * (Env * C).

Definition ret {C A} (a : A) : JS C A := fun s => (Normal a, s).

Definition bind {C A B} (m : JS C A) (k : A -> JS C B) : JS C B :=
  fun s =>
    match m s with
    | (Normal a, s') => k a s'
    | (Throw e, s') => (Throw e, s')
    end.

Declare Scope js_scope.
Delimit Scope js_scope with js.
Notation "x <- m ;; k" := (bind m (fun x => k))
  (at level 100, m at next level, right associativity) : js_scope.
Notation "m ;; k" := (bind m (fun _ => k))
  (at level 100, right associativity) : js_scope.
Local Open Scope js_scope.

(** Reading a global of the environment. *)
Definition global {C A} (f : Env -> A) : JS C A := fun s => (Normal (f (fst s)), s).

(** The setter returned by [useState]. *)
Definition setState {C} (v : C) : JS C () := fun s => (Normal (), (fst s, v)).

(** [localStorage.getItem(key)]: the stored string, or [null]. *)
Definition getItem {C} (key : string) : JS C (option string) :=
  fun s =>
    match getItem_raises (localStorage (fst s)) with
    | Some e => (Throw e, s)
    | None => (Normal (items (localStorage (fst s)) !! key), s)
    end.

(** [localStorage.setItem(key, value)]. *)
Definition setItem {C} (key value : string) : JS C () :=
  fun s =>
    let ls := localStorage (fst s) in
    match setItem_raises ls with
    | Some e => (Throw e, s)
    | None =>
        (Normal (),
         (with_localStorage
            {| items := <[key := value]> (items ls);
               getItem_raises := getItem_raises ls;
               setItem_raises := setItem_raises ls |} (fst s),
          snd s))
    end.

(** ** Cookie consent *)

Module CookieBanner.

(** [useState<boolean>(false)] *)
Definition visible0 : bool := false.

Definition setVisible : bool -> JS bool () := setState.

(** The effect run once after the first render. *)
Definition effect : JS bool () :=
  b <- global isBrowser ;;
  if negb b then ret ()
  else
    v <- getItem "ft_cookie_ok" ;;
    setVisible (js_not v).

(** The [onClick] handler of the Accept button. *)
Definition onClick : JS bool () :=
  b <- global isBrowser ;;
  (if b then setItem "ft_cookie_ok" "1" else ret ()) ;;
  setVisible false.

(** What the component renders: [null], or the banner with its Accept
    button and its Manage link. *)
Inductive view := Hidden | Visible.

Definition render (visible : bool) : view :=
  if negb visible then Hidden else Visible.

(** Mounting: first render with the initial state, then the effect. *)
Definition mount (e : Env) : completion () * (Env * bool) :=
  effect (e, visible0).

(** Clicking Accept on a mounted banner. The button only exists in the
    [Visible] view. *)
Definition accept (s : Env * bool) : completion () * (Env * bool) :=
  onClick s.

(** The view of a banner after one of the two steps above. *)
Definition view_of (r : completion () * (Env * bool)) : view :=
  render (snd (snd r)).

End CookieBanner.

(** ** SEO JSON-LD *)

(** The JSON values the page builds: string-valued members and nested
    objects. Members keep their insertion order, as the properties of a
    JavaScript object with non-numeric keys do. *)
#[warnings="-register-all"]
Inductive JSON :=
  | JString (s : string)
  | JObject (members : list (string * JSON)).

Definition quotation_mark : ascii := ascii_of_nat 34.
Definition reverse_solidus : ascii := ascii_of_nat 92.

Definition hex_digit (n : nat) : ascii :=
  nth n ["0"; "1"; "2"; "3"; "4"; "5"; "6"; "7";
         "8"; "9"; "a"; "b"; "c"; "d"; "e"; "f"]%char "0"%char.

(** One code unit of [QuoteJSONString]: the two-character escapes, the
    [\u00XX] escape of the other control characters, or the unit itself. *)
Definition quote_unit (c : ascii) : string :=
  let n := nat_of_ascii c in
  if (n =? 8)%nat then "\b"
  else if (n =? 9)%nat then "\t"
  else if (n =? 10)%nat then "\n"
  else if (n =? 12)%nat then "\f"
  else if (n =? 13)%nat then "\r"
  else if (n =? 34)%nat then String reverse_solidus (String quotation_mark "")
  else if (n =? 92)%nat then String reverse_solidus (String reverse_solidus "")
  else if (n <? 32)%nat then
    "\u00" ++ String (hex_digit (n / 16)) (String (hex_digit (n mod 16)) "")
  else String c "".

Fixpoint quote_units (s : string) : string :=
  match s with
  | EmptyString => EmptyString
  | String c s' => quote_unit c ++ quote_units s'
  end.

Definition QuoteJSONString (s : string) : string :=
  String quotation_mark (quote_units s ++ String quotation_mark "").

Fixpoint join (sep : string) (l : list string) : string :=
  match l with
  | [] => EmptyString
  | [x] => x
  | x :: l' => x ++ sep ++ join sep l'
  end.

(** [JSON.stringify] without indentation. *)
Fixpoint stringify (j : JSON) : string :=
  match j with
  | JString s => QuoteJSONString s
  | JObject members =>
      "{" ++ join ","
               (List.map (fun m => QuoteJSONString (fst m) ++ ":" ++ stringify (snd m))
                  members)
          ++ "}"
  end.

(** A JSON text written with apostrophes in place of quotation marks. *)
Fixpoint quoted (s : string) : string :=
  match s with
  | EmptyString => EmptyString
  | String c s' =>
      String (if Ascii.eqb c "'" then quotation_mark else c) (quoted s')
  end.

(** A rendered [<script>] element. *)
Record Script := {
  script_type : string;
  innerHTML : string
}.

Module JsonLD.

(** The object built under [useMemo] with an empty dependency list. *)
Definition json : JSON :=
  JObject [
    ("@context", JString "https://schema.org");
    ("@type", JString "Organization");
    ("name", JString "Franstrack");
    ("description", JString "Professional GPS tracking and fleet management solutions with real-time vehicle monitoring and analytics.");
    ("url", JString "https://franstrack.com");
    ("logo", JString "https://franstrack.com/logo.png");
    ("address", JObject [
       ("@type", JString "PostalAddress");
       ("addressLocality", JString "Liverpool");
       ("addressCountry", JString "UK")]);
    ("contactPoint", JObject [
       ("@type", JString "ContactPoint");
       ("telephone", JString "+44-151-000-0000");
       ("contactType", JString "customer service")])
  ].

Definition render (e : Env) : option Script :=
  if negb (isBrowser e) then None
  else Some {| script_type := "application/ld+json"; innerHTML := stringify json |}.

(** The text [JSON.stringify] gives for [json]. *)
Definition organization : string :=
  quoted "{'@context':'https://schema.org','@type':'Organization','name':'Franstrack','description':'Professional GPS tracking and fleet management solutions with real-time vehicle monitoring and analytics.','url':'https://franstrack.com','logo':'https://franstrack.com/logo.png','address':{'@type':'PostalAddress','addressLocality':'Liverpool','addressCountry':'UK'},'contactPoint':{'@type':'ContactPoint','telephone':'+44-151-000-0000','contactType':'customer service'}}".

End JsonLD.

(** ** Navigation bar: the scroll observer *)

(** [a > b] on numbers. A scroll offset is a finite double, hence a
    rational, and the comparison of finite doubles is the comparison of
    the rationals they denote. *)
Definition js_gt (a b : Q) : bool := negb (Qle_bool a b).

(** A closure expression evaluates to a function object of a new
    identity. *)
Definition closure {C} : JS C nat :=
  fun s =>
    let w := window (fst s) in
    (Normal (next_closure w),
     (with_window {| scrollY := scrollY w; listeners := listeners w;
                     next_closure := S (next_closure w) |} (fst s),
      snd s)).

(** [EventTarget.addEventListener]: appended unless the list already
    holds a listener of this type and callback. *)
Definition add_listener (l : EventListener) (ls : list EventListener) : list EventListener :=
  if bool_decide (l ∈ ls) then ls else ls ++ [l].

(** [EventTarget.removeEventListener]: the matching listener, if any, is
    taken out of the list. *)
Fixpoint remove_listener (l : EventListener) (ls : list EventListener) : list EventListener :=
  match ls with
  | [] => []
  | l' :: ls' => if bool_decide (l = l') then ls' else l' :: remove_listener l ls'
  end.

Definition update_listeners {C} (f : list EventListener -> list EventListener) : JS C () :=
  fun s =>
    let w := window (fst s) in
    (Normal (),
     (with_window {| scrollY := scrollY w; listeners := f (listeners w);
                     next_closure := next_closure w |} (fst s),
      snd s)).

Definition addEventListener {C} (ty : string) (cb : nat) : JS C () :=
  update_listeners (add_listener {| type := ty; callback := cb |}).

Definition removeEventListener {C} (ty : string) (cb : nat) : JS C () :=
  update_listeners (remove_listener {| type := ty; callback := cb |}).

(** Every closure in the listener list was allocated earlier: the
    invariant of the allocator. *)
Definition closures_allocated (w : Window) : Prop :=
  Forall (fun l => callback l < next_closure w) (listeners w).

Module Nav.

(** [useState(false)] *)
Definition scrolled0 : bool := false.

Definition setScrolled : bool -> JS bool () := setState.

(** Body of [handleScroll]. *)
Definition handleScroll : JS bool () :=
  y <- global (fun e => scrollY (window e)) ;;
  setScrolled (js_gt y 20).

(** The effect run once after the first render. Its result stands for
    the cleanup function it returns: [None] for the bare [return], and
    [Some h] for the closure that removes the listener [h] it captured. *)
Definition effect : JS bool (option nat) :=
  b <- global isBrowser ;;
  if negb b then ret None
  else
    h <- closure ;;
    addEventListener "scroll" h ;;
    ret (Some h).

(** Running the cleanup function of an effect. *)
Definition cleanup (c : option nat) : JS bool () :=
  match c with
  | None => ret ()
  | Some h => removeEventListener "scroll" h
  end.

(** A mounted navigation bar: its state cell, and the cleanup React keeps
    for the unmount. *)
Record instance := {
  scrolled : bool;
  destroy : option nat
}.

Definition mount (e : Env) : Env * instance :=
  match effect (e, scrolled0) with
  | (Normal c, (e', s)) => (e', {| scrolled := s; destroy := c |})
  | (Throw _, (e', s)) => (e', {| scrolled := s; destroy := None |})
  end.

(** The browser scrolls the viewport to offset [y] and fires a scroll
    event at [window]; the instance's handler runs when it is still in
    the listener list. *)
Definition scroll (y : Q) (s : Env * instance) : Env * instance :=
  let w := window (fst s) in
  let e := with_window {| scrollY := y; listeners := listeners w;
                          next_closure := next_closure w |} (fst s) in
  match destroy (snd s) with
  | Some h =>
      if bool_decide ({| type := "scroll"; callback := h |} ∈ listeners w)
      then
        let r := handleScroll (e, scrolled (snd s)) in
        (fst (snd r), {| scrolled := snd (snd r); destroy := Some h |})
      else (e, snd s)
  | None => (e, snd s)
  end.

Definition unmount (s : Env * instance) : Env :=
  fst (snd (cleanup (destroy (snd s)) (fst s, scrolled (snd s)))).

(** A run of scroll events, first offset first. *)
Definition scrolls (ys : list Q) (s : Env * instance) : Env * instance :=
  fold_left (fun s y => scroll y s) ys s.

(** The instance's handler is in the listener list. *)
Definition subscribed (s : Env * instance) : Prop :=
  exists h, destroy (snd s) = Some h /\
            {| type := "scroll"; callback := h |} ∈ listeners (window (fst s)).

(** The handler of the instance is not in the listener list. *)
Definition detached (s : Env * instance) : Prop :=
  forall h, destroy (snd s) = Some h ->
            {| type := "scroll"; callback := h |} ∉ listeners (window (fst s)).

(** The class of the [<header>] element. *)
Definition className (scrolled : bool) : string :=
  "fixed top-0 w-full z-50 transition-all duration-300 " ++
  (if scrolled then "bg-gray-900/95 backdrop-blur-md shadow-lg" else "bg-transparent").

End Nav.

(** ** Pricing *)

Module Pricing.

(** The union type ['monthly' | 'annual']. *)
Inductive BillingCycle := monthly | annual.

Global Instance BillingCycle_eq_dec : EqDecision BillingCycle.
Proof. solve_decision. Defined.

(** An element of [plans]; [featured] is [undefined] where the object
    literal leaves it out. *)
Record Plan := {
  name : string;
  description : string;
  monthlyPrice : Z;
  annualPrice : Z;
  featured : option bool;
  features : list string
}.

Definition plans : list Plan := [
  {| name := "Essential";
     description := "Perfect for small fleets";
     monthlyPrice := 12;
     annualPrice := 10;
     featured := None;
     features := [
       "Live GPS Tracking";
       "Basic Reports";
       "Email Support";
       "30-day History";
       "Mobile App Access" ] |};
  {| name := "Professional";
     description := "For growing businesses";
     monthlyPrice := 18;
     annualPrice := 15;
     featured := Some true;
     features := [
       "All Essential features";
       "Advanced Analytics";
       "Priority Support";
       "90-day History";
       "API Access";
       "Custom Reports";
       "SMS Alerts" ] |};
  {| name := "Enterprise";
     description := "For large operations";
     monthlyPrice := 25;
     annualPrice := 20;
     featured := None;
     features := [
       "All Professional features";
       "Unlimited History";
       "24/7 Phone Support";
       "Dedicated Account Manager";
       "Custom Integrations";
       "SLA Guarantee";
       "White-label Options" ] |}
].

(** [useState<'monthly' | 'annual'>('monthly')] *)
Definition billingCycle0 : BillingCycle := monthly.

(** The setter: the new state replaces the old one. *)
Definition setBillingCycle (c : BillingCycle) (_ : BillingCycle) : BillingCycle := c.

(** The [onClick] handlers of the two buttons of the toggle. *)
Definition selectMonthly : BillingCycle -> BillingCycle := setBillingCycle monthly.
Definition selectAnnual : BillingCycle -> BillingCycle := setBillingCycle annual.

(** The figure after the pound sign on a plan's card. *)
Definition price (billingCycle : BillingCycle) (plan : Plan) : Z :=
  if bool_decide (billingCycle = monthly) then monthlyPrice plan else annualPrice plan.

(** The figures of the cards, in the order [plans.map] renders them. *)
Definition prices (billingCycle : BillingCycle) : list Z :=
  List.map (price billingCycle) plans.

End Pricing.

(** ** The page *)

(** The transient state of a mounted page: the browser, and the state
    cells of the three stateful components. *)
Record Page := {
  env : Env;
  banner : bool;
  nav : Nav.instance;
  billingCycle : Pricing.BillingCycle
}.

(** What [FranstrackSite] renders from it, reduced to the parts that
    depend on state or environment. *)
Record View := {
  jsonLD : option Script;
  header : string;
  figures : list Z;
  cookieBanner : CookieBanner.view
}.

Definition FranstrackSite (p : Page) : View :=
  {| jsonLD := JsonLD.render (env p);
     header := Nav.className (Nav.scrolled (nav p));
     figures := Pricing.prices (billingCycle p);
     cookieBanner := CookieBanner.render (banner p) |}.

(** ** Sample browsers *)

Definition blank_window : Window :=
  {| scrollY := 0; listeners := []; next_closure := 0 |}.

(** A browser whose storage works and holds [m]. *)
Definition browser (m : gmap string string) : Env :=
  {| isBrowser := true;
     localStorage := {| items := m; getItem_raises := None; setItem_raises := None |};
     window := blank_window |}.

(** A browser that denies the page access to storage. *)
Definition storage_denied : Env :=
  {| isBrowser := true;
     localStorage := {| items := ∅;
                        getItem_raises := Some SecurityError;
                        setItem_raises := Some SecurityError |};
     window := blank_window |}.

(** A browser whose storage is readable but full. *)
Definition storage_full : Env :=
  {| isBrowser := true;
     localStorage := {| items := ∅;
                        getItem_raises := None;
                        setItem_raises := Some QuotaExceededError |};
     window := blank_window |}.

(** A runtime without [window] or [document] that still has a storage
    area holding [m]. *)
Definition server (m : gmap string string) : Env :=
  {| isBrowser := false;
     localStorage := {| items := m; getItem_raises := None; setItem_raises := None |};
     window := blank_window |}.

(** A window that already has a scroll listener of some other script,
    scrolled to offset 640. *)
Definition busy_window : Window :=
  {| scrollY := 640;
     listeners := [ {| type := "scroll"; callback := 0 |} ];
     next_closure := 1 |}.

(** Two pages in a browser that differ in every piece of transient
    state. *)
Definition fresh_page : Page :=
  {| env := browser ∅;
     banner := true;
     nav := {| Nav.scrolled := false; Nav.destroy := Some 0 |};
     billingCycle := Pricing.monthly |}.

Definition used_page : Page :=
  {| env := with_window busy_window (browser {[ "ft_cookie_ok" := "1" ]});
     banner := false;
     nav := {| Nav.scrolled := true; Nav.destroy := Some 1 |};
     billingCycle := Pricing.annual |}.

(** Reloading the page: the storage area outlives the document, the
    window is a new one, at the scroll offset [y] the browser restores. *)
Definition reload (y : Q) (e : Env) : Env :=
  with_window {| scrollY := y; listeners := []; next_closure := 0 |} e.

(** ** Utilities and UI primitives *)

(** An argument of [cx]: [string | false | null | undefined]. *)
Inductive ClassValue :=
  | CString (s : string)
  | CFalse
  | CNull
  | CUndefined.

(** [Boolean(v)]: only a non-empty string is truthy. *)
Definition Boolean (v : ClassValue) : bool :=
  match v with
  | CString (String _ _) => true
  | _ => false
  end.

(** The string [Array.prototype.join] puts in for an element. *)
Definition join_text (v : ClassValue) : string :=
  match v with
  | CString s => s
  | CFalse => "false"
  | CNull | CUndefined => EmptyString
  end.

(** [cls.filter(Boolean).join(" ")] *)
Definition cx (cls : list ClassValue) : string :=
  join " " (List.map join_text (List.filter Boolean cls)).

(** An optional [className] prop as an argument of [cx]. *)
Definition class_prop (className : option string) : ClassValue :=
  match className with
  | Some s => CString s
  | None => CUndefined
  end.

(** How the browser reads a [class] attribute: the text is split on
    ASCII whitespace and empty pieces are dropped. [cur] is the piece
    being read. *)
Definition is_ascii_whitespace (c : ascii) : bool :=
  let n := nat_of_ascii c in
  ((n =? 9) || (n =? 10) || (n =? 12) || (n =? 13) || (n =? 32))%nat.

Definition flush (cur : string) (rest : list string) : list string :=
  match cur with
  | EmptyString => rest
  | String _ _ => cur :: rest
  end.

Fixpoint split_from (cur s : string) : list string :=
  match s with
  | EmptyString => flush cur []
  | String c s' =>
      if is_ascii_whitespace c then flush cur (split_from EmptyString s')
      else split_from (cur ++ String c EmptyString) s'
  end.

Definition class_list (className : string) : list string :=
  split_from EmptyString className.

(** The classes an argument of [cx] stands for. *)
Definition classes_of (v : ClassValue) : list string :=
  match v with
  | CString s => class_list s
  | _ => []
  end.

Module Container.

Definition className (className : option string) : string :=
  cx [CString "mx-auto max-w-7xl px-6 lg:px-8"; class_prop className].

End Container.

Module Card.

(** [hover && "..."], with the default [hover = false]. *)
Definition hover_class (hover : option bool) : ClassValue :=
  if default false hover
  then CString "hover:shadow-xl transition-shadow duration-300"
  else CFalse.

Definition className (className : option string) (hover : option bool) : string :=
  cx [CString "rounded-2xl bg-gray-800 p-6 shadow-lg"; hover_class hover;
      class_prop className].

End Card.

Module Button.

Inductive Variant := primary | secondary.

(** The only value the [as] prop can take. *)
Inductive As := a.

(** The props the page passes; [onClick] is the part of [...props] it
    uses, with handlers of type [H]. *)
Record Props (H : Type) := {
  variant : option Variant;
  as_ : option As;
  href : option string;
  className : option string;
  onClick : option H
}.
Arguments variant {H} _.
Arguments as_ {H} _.
Arguments href {H} _.
Arguments className {H} _.
Arguments onClick {H} _.

(** What is rendered, children apart. *)
Inductive Element (H : Type) :=
  | anchor (href : string) (className : string)
  | button (className : string) (onClick : option H).
Arguments anchor {H} href className.
Arguments button {H} className onClick.

Definition baseStyles : string :=
  "inline-flex items-center justify-center rounded-xl px-6 py-3 font-medium transition-all duration-200 focus:outline-none focus:ring-2 focus:ring-offset-2 focus:ring-offset-[#0F1B2A]".

Definition variants (v : Variant) : string :=
  match v with
  | primary => "bg-blue-600 hover:bg-blue-700 text-white focus:ring-blue-500 shadow-lg hover:shadow-xl"
  | secondary => "bg-gray-700 hover:bg-gray-600 text-white focus:ring-gray-500 border border-gray-600"
  end.

(** [cx(baseStyles, variants[variant], className)], with the default
    [variant = "primary"]. *)
Definition classes {H} (p : Props H) : string :=
  cx [CString baseStyles; CString (variants (default primary (variant p)));
      class_prop (className p)].

Definition render {H} (p : Props H) : Element H :=
  match as_ p, href p with
  | Some a, Some (String c h) => anchor (String c h) (classes p)
  | _, _ => button (classes p) (onClick p)
  end.

Definition element_class {H} (e : Element H) : string :=
  match e with
  | anchor _ c => c
  | button c _ => c
  end.

End Button.

(** ** Pricing: the toggle and the cards *)

Module PricingView.

Import Pricing.

(** Class of a button of the toggle; [selected] is the comparison of
    [billingCycle] with the button's own cycle. *)
Definition toggle_class (selected : bool) : string :=
  "px-6 py-3 rounded-lg font-medium transition-all " ++
  (if selected then "bg-blue-600 text-white shadow-lg"
   else "text-white/70 hover:text-white").

Definition monthly_button (billingCycle : BillingCycle) : string :=
  toggle_class (bool_decide (billingCycle = monthly)).

Definition annual_button (billingCycle : BillingCycle) : string :=
  toggle_class (bool_decide (billingCycle = annual)).

(** Truthiness of [plan.featured]. *)
Definition is_featured (plan : Plan) : bool := default false (featured plan).

(** The text [variant="secondary"], quotation marks included. *)
Definition variant_text : string :=
  "variant=" ++ String quotation_mark ("secondary" ++ String quotation_mark EmptyString).

(** The class of the "Get Started" button of a card: the template
    literal puts [variant_text] into the class. *)
Definition get_started_class (plan : Plan) : string :=
  "w-full " ++ (if is_featured plan then EmptyString else variant_text).

(** One card of the grid, reduced to what depends on the plan and on
    the billing cycle. *)
Record CardView := {
  wrapper_class : string;
  badge : bool;
  card_class : string;
  figure : Z;
  get_started : Button.Element unit
}.

Definition card (billingCycle : BillingCycle) (plan : Plan) : CardView :=
  {| wrapper_class :=
       "relative " ++ (if is_featured plan then "lg:scale-105 z-10" else EmptyString);
     badge := is_featured plan;
     card_class :=
       Card.className
         (Some ("h-full border-2 " ++
                (if is_featured plan then "border-blue-500" else "border-gray-700") ++
                " relative overflow-hidden"))
         None;
     figure := price billingCycle plan;
     get_started :=
       Button.render
         {| Button.variant := None;
            Button.as_ := Some Button.a;
            Button.href := Some "#contact";
            Button.className := Some (get_started_class plan);
            Button.onClick := None |} |}.

(** A run of clicks on the toggle, first click first. *)
Definition clicks (cs : list BillingCycle) (s : BillingCycle) : BillingCycle :=
  fold_left (fun s c => setBillingCycle c s) cs s.

End PricingView.

(** ** Sessions of the cookie banner *)

Module Session.

(** What happens to the banner in a browser session: the page is loaded
    or reloaded (at a restored scroll offset), or the user clicks Accept. *)
Inductive event :=
  | Load (y : Q)
  | Click.

(** A load mounts a new banner on the reloaded browser. A click reaches
    the handler only while the banner is rendered. State changes made
    before an exception stay. *)
Definition step (s : Env * bool) (ev : event) : Env * bool :=
  match ev with
  | Load y => snd (CookieBanner.mount (reload y (fst s)))
  | Click =>
      match CookieBanner.render (snd s) with
      | CookieBanner.Visible => snd (CookieBanner.accept s)
      | CookieBanner.Hidden => s
      end
  end.

Definition run (evs : list event) (s : Env * bool) : Env * bool :=
  fold_left step evs s.

(** The consent entry holds a truthy value. *)
Definition consented (e : Env) : Prop :=
  ToBoolean (items (localStorage e) !! "ft_cookie_ok") = true.

End Session.

(** * Properties *)

(** ** JavaScript truthiness *)

Lemma js_not_true (v : option string) :
  js_not v = true <-> v = None \/ v = Some EmptyString.
Proof.
  destruct v as [[|c s]|]; cbn; split; intros H; auto;
    try discriminate; destruct H; discriminate.
Qed.

(** ** Cookie consent *)

Section CookieBannerFacts.

Import CookieBanner.

(** The effect, run to its end, case by case. *)
Lemma mount_server (e : Env) :
  isBrowser e = false -> mount e = (Normal (), (e, false)).
Proof. intros Hb. unfold mount, effect, bind, global. cbn. by rewrite Hb. Qed.

Lemma mount_throw (e : Env) (x : DOMException) :
  isBrowser e = true -> getItem_raises (localStorage e) = Some x ->
  mount e = (Throw x, (e, false)).
Proof.
  intros Hb Hr. unfold mount, effect, bind, global, getItem. cbn.
  by rewrite Hb; cbn; rewrite Hr.
Qed.

Lemma mount_read (e : Env) :
  isBrowser e = true -> getItem_raises (localStorage e) = None ->
  mount e = (Normal (), (e, js_not (items (localStorage e) !! "ft_cookie_ok"))).
Proof.
  intros Hb Hr. unfold mount, effect, bind, global, getItem. cbn.
  by rewrite Hb; cbn; rewrite Hr.
Qed.

Lemma render_Visible (v : bool) : render v = Visible <-> v = true.
Proof. destruct v; cbn; split; congruence. Qed.

Lemma render_Hidden (v : bool) : render v = Hidden <-> v = false.
Proof. destruct v; cbn; split; congruence. Qed.

(** The click handler, case by case. *)
Lemma accept_server (e : Env) (v : bool) :
  isBrowser e = false -> accept (e, v) = (Normal (), (e, false)).
Proof. intros Hb. unfold accept, onClick, bind, global. cbn. by rewrite Hb. Qed.

Lemma accept_throw (e : Env) (v : bool) (x : DOMException) :
  isBrowser e = true -> setItem_raises (localStorage e) = Some x ->
  accept (e, v) = (Throw x, (e, v)).
Proof.
  intros Hb Hw. unfold accept, onClick, bind, global, setItem. cbn.
  by rewrite Hb; cbn; rewrite Hw.
Qed.

Lemma accept_written (e : Env) (v : bool) :
  isBrowser e = true -> setItem_raises (localStorage e) = None ->
  accept (e, v) =
    (Normal (),
     (with_localStorage
        {| items := <["ft_cookie_ok" := "1"]> (items (localStorage e));
           getItem_raises := getItem_raises (localStorage e);
           setItem_raises := None |} e,
      false)).
Proof.
  intros Hb Hw. unfold accept, onClick, bind, global, setItem. cbn.
  by rewrite Hb; cbn; rewrite Hw.
Qed.

End CookieBannerFacts.

(** C1, as stated, fails: an entry that is present with the empty string
    as its value is falsy under [!], so the banner is shown; and where
    [isBrowser] is false the effect returns before the read, so the banner
    stays hidden although the entry is absent. *)
Lemma mount_presence_counterexample :
  (items (localStorage (browser {[ "ft_cookie_ok" := EmptyString ]})) !! "ft_cookie_ok"
     = Some EmptyString /\
   CookieBanner.view_of (CookieBanner.mount (browser {[ "ft_cookie_ok" := EmptyString ]}))
     = CookieBanner.Visible) /\
  (items (localStorage (server ∅)) !! "ft_cookie_ok" = None /\
   CookieBanner.view_of (CookieBanner.mount (server ∅)) = CookieBanner.Hidden).
Proof. repeat split; vm_compute; reflexivity. Qed.

(** C1 (amended): after mount the banner is [Visible] if and only if the
    page runs in a browser, the storage read does not throw, and the
    consent entry is absent or holds the empty string; whenever the entry
    holds a non-empty string the banner is [Hidden] after mount. *)
Theorem mount_visible_iff (e : Env) :
  (CookieBanner.view_of (CookieBanner.mount e) = CookieBanner.Visible <->
     isBrowser e = true /\
     getItem_raises (localStorage e) = None /\
     (items (localStorage e) !! "ft_cookie_ok" = None \/
      items (localStorage e) !! "ft_cookie_ok" = Some EmptyString)) /\
  (forall c s,
     items (localStorage e) !! "ft_cookie_ok" = Some (String c s) ->
     CookieBanner.view_of (CookieBanner.mount e) = CookieBanner.Hidden).
Proof.
  unfold CookieBanner.view_of.
  destruct (isBrowser e) eqn:Hb.
  - destruct (getItem_raises (localStorage e)) as [x|] eqn:Hr.
    + rewrite (mount_throw e x Hb Hr). cbn. split; [split|]; [discriminate| |done].
      intros (_ & ? & _). discriminate.
    + rewrite (mount_read e Hb Hr). cbn [snd]. split.
      * rewrite render_Visible, js_not_true. tauto.
      * intros c s ->. reflexivity.
  - rewrite (mount_server e Hb). cbn. split; [split|]; [discriminate| |done].
    intros (? & _). discriminate.
Qed.

Lemma mount_visible_iff_witness :
  CookieBanner.view_of (CookieBanner.mount (browser ∅)) = CookieBanner.Visible /\
  CookieBanner.view_of (CookieBanner.mount (browser {[ "ft_cookie_ok" := "1" ]}))
    = CookieBanner.Hidden.
Proof.
  split.
  - apply (proj2 (proj1 (mount_visible_iff (browser ∅)))).
    repeat split; try reflexivity. left. vm_compute. reflexivity.
  - apply (proj2 (mount_visible_iff (browser {[ "ft_cookie_ok" := "1" ]})) "1"%char EmptyString).
    vm_compute. reflexivity.
Defined.

(** C2, as stated, fails: when the read throws nothing catches the
    exception, the effect ends there, and [visible] keeps its initial
    value [false]. *)
Lemma mount_read_throws_counterexample :
  getItem_raises (localStorage storage_denied) = Some SecurityError /\
  CookieBanner.mount storage_denied
    = (Throw SecurityError, (storage_denied, false)) /\
  CookieBanner.view_of (CookieBanner.mount storage_denied) = CookieBanner.Hidden.
Proof. repeat split. Qed.

(** C2 (amended): where reading the consent flag throws, the exception
    leaves the mount effect uncaught; where [isBrowser] is false the effect
    returns before the read. In both cases nothing else changes, [visible]
    keeps its initial value [false] and the banner is [Hidden]. *)
Theorem mount_unreadable_hidden (e : Env) :
  isBrowser e = false \/ getItem_raises (localStorage e) <> None ->
  CookieBanner.view_of (CookieBanner.mount e) = CookieBanner.Hidden /\
  snd (CookieBanner.mount e) = (e, false) /\
  fst (CookieBanner.mount e) =
    (if isBrowser e
     then from_option Throw (Normal ()) (getItem_raises (localStorage e))
     else Normal ()).
Proof.
  unfold CookieBanner.view_of. intros H.
  destruct (isBrowser e) eqn:Hb.
  - destruct H as [H|H]; [discriminate|].
    destruct (getItem_raises (localStorage e)) as [x|] eqn:Hr; [|done].
    by rewrite (mount_throw e x Hb Hr).
  - by rewrite (mount_server e Hb).
Qed.

Lemma mount_unreadable_hidden_witness :
  CookieBanner.view_of (CookieBanner.mount storage_denied) = CookieBanner.Hidden /\
  snd (CookieBanner.mount storage_denied) = (storage_denied, false) /\
  fst (CookieBanner.mount storage_denied) = Throw SecurityError.
Proof.
  apply (mount_unreadable_hidden storage_denied). right. discriminate.
Defined.

(** C3, as stated, fails: when the write throws, the handler ends before
    [setVisible(false)]; the banner stays [Visible] and the error is not
    swallowed. *)
Lemma accept_write_throws_counterexample :
  setItem_raises (localStorage storage_full) = Some QuotaExceededError /\
  CookieBanner.accept (storage_full, true)
    = (Throw QuotaExceededError, (storage_full, true)) /\
  CookieBanner.view_of (CookieBanner.accept (storage_full, true)) = CookieBanner.Visible.
Proof. repeat split. Qed.

(** C3 (amended): in every environment where the consent write does not
    throw (the write is skipped where [isBrowser] is false), Accept from
    [Visible] completes normally and yields [Hidden], and in a browser the
    consent flag is then present with value "1". Where the write throws,
    the exception leaves the handler uncaught and the state is unchanged:
    the banner is still [Visible]. *)
Theorem accept_from_visible (e : Env) :
  (isBrowser e = false \/ setItem_raises (localStorage e) = None ->
     fst (CookieBanner.accept (e, true)) = Normal () /\
     CookieBanner.view_of (CookieBanner.accept (e, true)) = CookieBanner.Hidden /\
     (isBrowser e = true ->
      items (localStorage (fst (snd (CookieBanner.accept (e, true))))) !! "ft_cookie_ok"
        = Some "1")) /\
  (forall x,
     isBrowser e = true -> setItem_raises (localStorage e) = Some x ->
     CookieBanner.accept (e, true) = (Throw x, (e, true)) /\
     CookieBanner.view_of (CookieBanner.accept (e, true)) = CookieBanner.Visible).
Proof.
  unfold CookieBanner.view_of. split.
  - intros H. destruct (isBrowser e) eqn:Hb.
    + destruct H as [H|Hw]; [discriminate|].
      rewrite (accept_written e true Hb Hw). cbn.
      repeat split. intros _. apply lookup_insert_eq.
    + rewrite (accept_server e true Hb). cbn. repeat split. discriminate.
  - intros x Hb Hw. by rewrite (accept_throw e true x Hb Hw).
Qed.

Lemma accept_from_visible_witness :
  (CookieBanner.view_of (CookieBanner.accept (browser ∅, true)) = CookieBanner.Hidden /\
   items (localStorage (fst (snd (CookieBanner.accept (browser ∅, true))))) !! "ft_cookie_ok"
     = Some "1") /\
  CookieBanner.view_of (CookieBanner.accept (storage_full, true)) = CookieBanner.Visible.
Proof.
  split.
  - destruct (proj1 (accept_from_visible (browser ∅)) (or_intror eq_refl))
      as (_ & Hv & Hi).
    split; [exact Hv | exact (Hi eq_refl)].
  - exact (proj2 (proj2 (accept_from_visible storage_full)
                    QuotaExceededError eq_refl eq_refl)).
Defined.

(** C4: in a browser whose storage works and holds no consent entry, the
    first mount shows the banner; Accept hides it and stores the flag; and
    after a reload (at whatever scroll offset) the mount reads the flag
    back and the banner stays hidden. *)
Theorem accept_round_trip (e : Env) (y : Q) :
  isBrowser e = true ->
  getItem_raises (localStorage e) = None ->
  setItem_raises (localStorage e) = None ->
  items (localStorage e) !! "ft_cookie_ok" = None ->
  let m1 := CookieBanner.mount e in
  let a := CookieBanner.accept (snd m1) in
  let m2 := CookieBanner.mount (reload y (fst (snd a))) in
  (fst m1 = Normal () /\ CookieBanner.view_of m1 = CookieBanner.Visible) /\
  (fst a = Normal () /\ CookieBanner.view_of a = CookieBanner.Hidden /\
   items (localStorage (fst (snd a))) !! "ft_cookie_ok" = Some "1") /\
  (fst m2 = Normal () /\ CookieBanner.view_of m2 = CookieBanner.Hidden).
Proof.
  intros Hb Hr Hw Habs. cbv zeta. unfold CookieBanner.view_of.
  rewrite (mount_read e Hb Hr), Habs. cbn [fst snd js_not ToBoolean negb].
  rewrite (accept_written e true Hb Hw). cbn [fst snd].
  rewrite mount_read by (cbn; assumption).
  cbn [localStorage with_localStorage reload with_window items fst snd].
  rewrite lookup_insert_eq. repeat split.
Qed.

Lemma accept_round_trip_witness :
  let m1 := CookieBanner.mount (browser ∅) in
  let a := CookieBanner.accept (snd m1) in
  let m2 := CookieBanner.mount (reload 300 (fst (snd a))) in
  (fst m1 = Normal () /\ CookieBanner.view_of m1 = CookieBanner.Visible) /\
  (fst a = Normal () /\ CookieBanner.view_of a = CookieBanner.Hidden /\
   items (localStorage (fst (snd a))) !! "ft_cookie_ok" = Some "1") /\
  (fst m2 = Normal () /\ CookieBanner.view_of m2 = CookieBanner.Hidden).
Proof.
  apply (accept_round_trip (browser ∅) 300); reflexivity.
Defined.

(** ** The scroll observer *)

Lemma js_gt_spec (a b : Q) : js_gt a b = true <-> (b < a)%Q.
Proof.
  unfold js_gt. rewrite negb_true_iff, <- not_true_iff_false, Qle_bool_iff.
  split; [apply Qnot_le_lt | apply Qlt_not_le].
Qed.

(** Listener lists. *)
Lemma remove_add_listener (l : EventListener) (ls : list EventListener) :
  l ∉ ls -> remove_listener l (add_listener l ls) = ls.
Proof.
  intros Hl. unfold add_listener. rewrite bool_decide_eq_false_2 by done.
  induction ls as [|l' ls IH]; cbn.
  - by rewrite bool_decide_eq_true_2.
  - apply not_elem_of_cons in Hl as [Hne Hl].
    rewrite bool_decide_eq_false_2 by done. by rewrite IH.
Qed.

Lemma elem_of_add_listener (l : EventListener) (ls : list EventListener) :
  l ∈ add_listener l ls.
Proof.
  unfold add_listener. case_bool_decide; [done|]. set_solver.
Qed.

Lemma closures_allocated_fresh (w : Window) (ty : string) :
  closures_allocated w ->
  {| type := ty; callback := next_closure w |} ∉ listeners w.
Proof.
  unfold closures_allocated. rewrite Forall_forall. intros Hw Hin.
  apply Hw in Hin. cbn in Hin. lia.
Qed.

Section NavFacts.

Import Nav.

Lemma mount_server_nav (e : Env) :
  isBrowser e = false -> mount e = (e, {| scrolled := false; destroy := None |}).
Proof. intros Hb. unfold mount, effect, bind, global. cbn. by rewrite Hb. Qed.

Lemma mount_browser_nav (e : Env) :
  isBrowser e = true ->
  mount e =
    (with_window
       {| scrollY := scrollY (window e);
          listeners :=
            add_listener {| type := "scroll"; callback := next_closure (window e) |}
              (listeners (window e));
          next_closure := S (next_closure (window e)) |} e,
     {| scrolled := false; destroy := Some (next_closure (window e)) |}).
Proof. intros Hb. unfold mount, effect, bind, global. cbn. by rewrite Hb. Qed.

(** A scroll event changes neither the listener list, nor the allocator,
    nor the cleanup of the instance. *)
Lemma scroll_listeners (y : Q) (s : Env * instance) :
  listeners (window (fst (scroll y s))) = listeners (window (fst s)).
Proof.
  unfold scroll. destruct (destroy (snd s)); [case_bool_decide|]; reflexivity.
Qed.

Lemma scroll_destroy (y : Q) (s : Env * instance) :
  destroy (snd (scroll y s)) = destroy (snd s).
Proof.
  unfold scroll. destruct (destroy (snd s)) eqn:Hd; [case_bool_decide|]; cbn; congruence.
Qed.

Lemma scrolls_listeners (ys : list Q) (s : Env * instance) :
  listeners (window (fst (scrolls ys s))) = listeners (window (fst s)).
Proof.
  revert s. induction ys as [|y ys IH]; intros s; [done|].
  cbn. unfold scrolls in IH. by rewrite IH, scroll_listeners.
Qed.

Lemma scrolls_destroy (ys : list Q) (s : Env * instance) :
  destroy (snd (scrolls ys s)) = destroy (snd s).
Proof.
  revert s. induction ys as [|y ys IH]; intros s; [done|].
  cbn. unfold scrolls in IH. by rewrite IH, scroll_destroy.
Qed.

Lemma mount_subscribed (e : Env) : isBrowser e = true -> subscribed (mount e).
Proof.
  intros Hb. rewrite (mount_browser_nav e Hb).
  exists (next_closure (window e)). split; [done|]. cbn. apply elem_of_add_listener.
Qed.

Lemma scrolls_subscribed (ys : list Q) (s : Env * instance) :
  subscribed s -> subscribed (scrolls ys s).
Proof.
  intros (h & Hd & Hin). exists h.
  by rewrite scrolls_destroy, scrolls_listeners.
Qed.

(** The handler overwrites the cell with the comparison, whatever the cell
    held. *)
Lemma scroll_subscribed (y : Q) (s : Env * instance) :
  subscribed s -> scrolled (snd (scroll y s)) = js_gt y 20.
Proof.
  intros (h & Hd & Hin). unfold scroll. rewrite Hd.
  by rewrite bool_decide_eq_true_2.
Qed.

Lemma unmount_listeners (s : Env * instance) :
  listeners (window (unmount s)) =
    match destroy (snd s) with
    | Some h => remove_listener {| type := "scroll"; callback := h |}
                  (listeners (window (fst s)))
    | None => listeners (window (fst s))
    end.
Proof. unfold unmount, cleanup. by destruct (destroy (snd s)). Qed.

End NavFacts.

(** C5: on a navigation bar mounted in a browser, after any run of
    earlier scroll events, a scroll event at offset [y] leaves [scrolled]
    true exactly when [y > 20]; the earlier value of the signal plays no
    part. *)
Theorem scrolled_iff_past_threshold (e : Env) (ys : list Q) (y : Q) :
  isBrowser e = true ->
  Nav.scrolled (snd (Nav.scroll y (Nav.scrolls ys (Nav.mount e)))) = js_gt y 20 /\
  (Nav.scrolled (snd (Nav.scroll y (Nav.scrolls ys (Nav.mount e)))) = true <-> (20 < y)%Q).
Proof.
  intros Hb.
  assert (Nav.scrolled (snd (Nav.scroll y (Nav.scrolls ys (Nav.mount e)))) = js_gt y 20)
    as -> by (apply scroll_subscribed, scrolls_subscribed, mount_subscribed, Hb).
  split; [reflexivity | apply js_gt_spec].
Qed.

Lemma scrolled_iff_past_threshold_witness :
  Nav.scrolled (snd (Nav.scroll 20 (Nav.scrolls [] (Nav.mount (browser ∅))))) = false /\
  Nav.scrolled (snd (Nav.scroll 21 (Nav.scrolls [20%Q] (Nav.mount (browser ∅))))) = true /\
  Nav.scrolled (snd (Nav.scroll 0 (Nav.scrolls [20%Q; 21%Q] (Nav.mount (browser ∅))))) = false.
Proof.
  split; [|split].
  - exact (proj1 (scrolled_iff_past_threshold (browser ∅) [] 20 eq_refl)).
  - exact (proj1 (scrolled_iff_past_threshold (browser ∅) [20%Q] 21 eq_refl)).
  - exact (proj1 (scrolled_iff_past_threshold (browser ∅) [20%Q; 21%Q] 0 eq_refl)).
Defined.

(** C9: mounting the navigation bar, delivering any run of scroll events
    and unmounting it leaves the listener list of [window] as it was before
    the mount, on both paths of the effect (with and without a browser).
    The closures in the list are ones allocated before the mount. *)
Theorem unmount_restores_listeners (e : Env) (ys : list Q) :
  closures_allocated (window e) ->
  listeners (window (Nav.unmount (Nav.scrolls ys (Nav.mount e)))) = listeners (window e).
Proof.
  intros Hw. rewrite unmount_listeners, scrolls_destroy, scrolls_listeners.
  destruct (isBrowser e) eqn:Hb.
  - rewrite (mount_browser_nav e Hb). cbn.
    apply remove_add_listener, closures_allocated_fresh, Hw.
  - by rewrite (mount_server_nav e Hb).
Qed.

Lemma unmount_restores_listeners_witness :
  listeners (window (Nav.unmount
    (Nav.scrolls [21%Q; 0%Q] (Nav.mount (with_window busy_window (browser ∅))))))
  = [ {| type := "scroll"; callback := 0 |} ].
Proof.
  apply (unmount_restores_listeners (with_window busy_window (browser ∅)) [21%Q; 0%Q]).
  unfold closures_allocated. cbn. repeat constructor.
Defined.

(** C10: right after mount, before any scroll event, [scrolled] is false
    and the header has the transparent style, whatever [window.scrollY]
    is at that time; the first scroll event then brings the signal in line
    with the offset. *)
Theorem mount_not_scrolled (e : Env) :
  Nav.scrolled (snd (Nav.mount e)) = false /\
  scrollY (window (fst (Nav.mount e))) = scrollY (window e) /\
  Nav.className (Nav.scrolled (snd (Nav.mount e)))
    = "fixed top-0 w-full z-50 transition-all duration-300 bg-transparent".
Proof.
  destruct (isBrowser e) eqn:Hb.
  - by rewrite (mount_browser_nav e Hb).
  - by rewrite (mount_server_nav e Hb).
Qed.

(** ** Pricing *)

(** C6: every plan's monthly price is at least its annual price; the
    plans are Essential 12/10, Professional 18/15 and Enterprise 25/20 in
    this order; and with the billing cycle at [annual] the cards show 10,
    15, 20 (and 12, 18, 25 at [monthly]). *)
Theorem plans_annual_discount :
  Forall (fun p => (Pricing.monthlyPrice p >= Pricing.annualPrice p)%Z) Pricing.plans /\
  List.map (fun p => (Pricing.name p, Pricing.monthlyPrice p, Pricing.annualPrice p))
    Pricing.plans
    = [("Essential", 12%Z, 10%Z); ("Professional", 18%Z, 15%Z); ("Enterprise", 25%Z, 20%Z)] /\
  Pricing.prices Pricing.annual = [10; 15; 20]%Z /\
  Pricing.prices Pricing.monthly = [12; 18; 25]%Z.
Proof.
  split; [|repeat split].
  unfold Pricing.plans. repeat constructor; cbn; lia.
Qed.

(** C7: the toggle starts at [monthly]; either selection leads to its
    own state from any state, so selecting the current state changes
    nothing, and repeating a selection changes neither the state nor the
    figures shown. *)
Theorem select_idempotent :
  Pricing.billingCycle0 = Pricing.monthly /\
  (Pricing.selectMonthly Pricing.monthly = Pricing.monthly /\
   Pricing.selectAnnual Pricing.annual = Pricing.annual) /\
  forall s : Pricing.BillingCycle,
    (Pricing.selectAnnual s = Pricing.annual /\
     Pricing.selectAnnual (Pricing.selectAnnual s) = Pricing.selectAnnual s /\
     Pricing.prices (Pricing.selectAnnual (Pricing.selectAnnual s))
       = Pricing.prices (Pricing.selectAnnual s)) /\
    (Pricing.selectMonthly s = Pricing.monthly /\
     Pricing.selectMonthly (Pricing.selectMonthly s) = Pricing.selectMonthly s /\
     Pricing.prices (Pricing.selectMonthly (Pricing.selectMonthly s))
       = Pricing.prices (Pricing.selectMonthly s)).
Proof. repeat split. Qed.

(** ** Structured metadata *)

Lemma stringify_json : stringify JsonLD.json = JsonLD.organization.
Proof. vm_compute. reflexivity. Qed.

(** C8: what the page emits as structured metadata depends on nothing
    but [isBrowser]: in a browser it is always the same script element,
    whose text is the fixed serialization of the organization record, and
    elsewhere nothing is emitted. Hence two pages on the same kind of
    runtime emit the same thing, whatever their scroll position, storage
    content, banner state and billing cycle. *)
Theorem jsonLD_fixed (p1 p2 : Page) :
  jsonLD (FranstrackSite p1) =
    (if isBrowser (env p1)
     then Some {| script_type := "application/ld+json";
                  innerHTML := JsonLD.organization |}
     else None) /\
  (isBrowser (env p1) = isBrowser (env p2) ->
   jsonLD (FranstrackSite p1) = jsonLD (FranstrackSite p2)).
Proof.
  cbn. unfold JsonLD.render. rewrite stringify_json. split.
  - by destruct (isBrowser (env p1)).
  - by intros ->.
Qed.

Lemma jsonLD_fixed_witness :
  jsonLD (FranstrackSite fresh_page) = jsonLD (FranstrackSite used_page).
Proof. exact (proj2 (jsonLD_fixed fresh_page used_page) eq_refl). Defined.

(** ** Class names *)

Section ClassNames.

Lemma append_String (c : ascii) (s t : string) : String c s ++ t = String c (s ++ t).
Proof. reflexivity. Qed.

Lemma append_assoc (s1 s2 s3 : string) : (s1 ++ s2) ++ s3 = s1 ++ (s2 ++ s3).
Proof.
  induction s1 as [|c s1 IH]; [done|]. by rewrite !append_String, IH.
Qed.

Lemma flush_app (cur : string) (l1 l2 : list string) :
  flush cur (l1 ++ l2)%list = (flush cur l1 ++ l2)%list.
Proof. by destruct cur. Qed.

(** A blank between two texts separates their classes. *)
Lemma split_from_blank (cur a b : string) :
  split_from cur (a ++ String " " b) = (split_from cur a ++ split_from EmptyString b)%list.
Proof.
  revert cur. induction a as [|c a IH]; intros cur.
  - change (EmptyString ++ String " " b) with (String " " b).
    cbn [split_from]. change (is_ascii_whitespace " ") with true.
    cbn iota. by rewrite <- flush_app.
  - rewrite append_String. cbn [split_from].
    destruct (is_ascii_whitespace c).
    + by rewrite IH, flush_app.
    + apply IH.
Qed.

Lemma class_list_blank (a b : string) :
  class_list (a ++ " " ++ b) = (class_list a ++ class_list b)%list.
Proof. apply split_from_blank. Qed.

Lemma class_list_join (s : string) (l : list string) :
  class_list (join " " (s :: l)) = (class_list s ++ class_list (join " " l))%list.
Proof.
  destruct l as [|x l].
  - cbn [join]. change (class_list EmptyString) with (@nil string).
    by rewrite app_nil_r.
  - change (join " " (s :: x :: l)) with (s ++ " " ++ join " " (x :: l)).
    apply class_list_blank.
Qed.

Lemma Boolean_false_classes (v : ClassValue) : Boolean v = false -> classes_of v = [].
Proof. by destruct v as [[|c s]| | |]. Qed.

Lemma Boolean_true_text (v : ClassValue) :
  Boolean v = true -> exists c s, v = CString (String c s).
Proof. destruct v as [[|c s]| | |]; try discriminate. eauto. Qed.

Lemma cx_cons_falsy (v : ClassValue) (cls : list ClassValue) :
  Boolean v = false -> cx (v :: cls) = cx cls.
Proof. intros Hv. unfold cx. cbn. by rewrite Hv. Qed.

Lemma join_app_blank (l1 l2 : list string) :
  l1 <> [] -> l2 <> [] ->
  join " " (l1 ++ l2)%list = join " " l1 ++ " " ++ join " " l2.
Proof.
  intros H1 H2. induction l1 as [|x l1 IH]; [done|].
  destruct l1 as [|x' l1].
  - cbn. by destruct l2.
  - change (join " " ((x :: x' :: l1) ++ l2)%list)
      with (x ++ " " ++ join " " ((x' :: l1) ++ l2)%list).
    rewrite IH by done.
    change (join " " (x :: x' :: l1)) with (x ++ " " ++ join " " (x' :: l1)).
    by rewrite !append_assoc.
Qed.

(** The text of [cx] is empty only when nothing was kept. *)
Lemma cx_empty_iff (cls : list ClassValue) :
  cx cls = EmptyString <-> List.filter Boolean cls = [].
Proof.
  unfold cx. split; [|by intros ->].
  destruct (List.filter Boolean cls) as [|v l] eqn:Hf; [done|].
  assert (Boolean v = true) as Hv.
  { assert (In v (List.filter Boolean cls)) as Hin by (rewrite Hf; by left).
    by apply filter_In in Hin as [_ ?]. }
  apply Boolean_true_text in Hv as (c & s & ->).
  cbn. by destruct (List.map join_text l).
Qed.

Lemma class_list_cx (cls : list ClassValue) :
  class_list (cx cls) = concat (List.map classes_of cls).
Proof.
  induction cls as [|v cls IH]; [done|].
  cbn [List.map concat]. rewrite <- IH.
  destruct (Boolean v) eqn:Hv.
  - apply Boolean_true_text in Hv as (c & s & ->).
    unfold cx. cbn [List.filter Boolean List.map join_text classes_of].
    apply class_list_join.
  - by rewrite cx_cons_falsy, Boolean_false_classes.
Qed.

Lemma classes_of_class_prop (className : option string) :
  classes_of (class_prop className) = from_option class_list [] className.
Proof. by destruct className. Qed.

End ClassNames.

(** X1: the class list of the text [cx] returns is the concatenation, in
    argument order, of the class lists of its string arguments; [false],
    [null], [undefined] and the empty string contribute nothing. *)
Theorem cx_class_list (cls : list ClassValue) :
  class_list (cx cls) = concat (List.map classes_of cls).
Proof. apply class_list_cx. Qed.

(** X2: a falsy argument anywhere in the list leaves the text of [cx] as
    it is without that argument: no stray blank is produced. *)
Theorem cx_skips_falsy (l1 l2 : list ClassValue) (v : ClassValue) :
  Boolean v = false -> cx (l1 ++ v :: l2)%list = cx (l1 ++ l2)%list.
Proof.
  intros Hv. unfold cx. rewrite !List.filter_app. cbn. by rewrite Hv.
Qed.

Lemma cx_skips_falsy_witness :
  cx [CString "w-full"; CString EmptyString; CString "px-6"] = "w-full px-6" /\
  cx [CString "w-full"; CUndefined] = "w-full".
Proof.
  split.
  - exact (cx_skips_falsy [CString "w-full"] [CString "px-6"] (CString EmptyString) eq_refl).
  - exact (cx_skips_falsy [CString "w-full"] [] CUndefined eq_refl).
Defined.

(** X3: [cx] can be nested: joining two argument lists at once gives the
    same text as joining each and passing the two results to [cx]. *)
Theorem cx_nested (l1 l2 : list ClassValue) :
  cx (l1 ++ l2)%list = cx [CString (cx l1); CString (cx l2)].
Proof.
  destruct (List.filter Boolean l1) as [|v1 f1] eqn:H1;
    destruct (List.filter Boolean l2) as [|v2 f2] eqn:H2.
  - rewrite (proj2 (cx_empty_iff l1) H1), (proj2 (cx_empty_iff l2) H2).
    unfold cx. by rewrite List.filter_app, H1, H2.
  - rewrite (proj2 (cx_empty_iff l1) H1).
    assert (cx (l1 ++ l2)%list = cx l2) as ->
      by (unfold cx; by rewrite List.filter_app, H1).
    destruct (cx l2) as [|c s] eqn:E; [done|].
    reflexivity.
  - rewrite (proj2 (cx_empty_iff l2) H2).
    assert (cx (l1 ++ l2)%list = cx l1) as ->
      by (unfold cx; by rewrite List.filter_app, H1, H2, app_nil_r).
    destruct (cx l1) as [|c s] eqn:E; [done|].
    reflexivity.
  - assert (cx l1 <> EmptyString) as N1 by (rewrite cx_empty_iff, H1; done).
    assert (cx l2 <> EmptyString) as N2 by (rewrite cx_empty_iff, H2; done).
    assert (cx (l1 ++ l2)%list = cx l1 ++ " " ++ cx l2) as ->.
    { unfold cx. rewrite List.filter_app, List.map_app, H1, H2. by apply join_app_blank. }
    destruct (cx l1) as [|c1 s1]; [done|]. destruct (cx l2) as [|c2 s2]; [done|].
    reflexivity.
Qed.

(** ** UI primitives *)

Lemma Button_classes {H} (p : Button.Props H) :
  class_list (Button.classes p) =
    (class_list Button.baseStyles ++
     class_list (Button.variants (default Button.primary (Button.variant p))) ++
     from_option class_list [] (Button.className p))%list.
Proof.
  unfold Button.classes. rewrite class_list_cx. cbn [List.map concat classes_of].
  by rewrite classes_of_class_prop, app_nil_r.
Qed.

(** X4: [Button] renders a link exactly when [as] is ["a"] and [href] is
    a non-empty string, and the link then goes to [href]; otherwise (also
    for an empty [href]) it renders a button, which carries [onClick]. In
    both cases the classes are those of [baseStyles], then those of the
    variant ([primary] when none is given), then those of [className]. *)
Theorem Button_render {H} (p : Button.Props H) :
  match Button.render p with
  | Button.anchor h _ =>
      Button.as_ p = Some Button.a /\ Button.href p = Some h /\ ToBoolean (Some h) = true
  | Button.button _ k =>
      (Button.as_ p = None \/ ToBoolean (Button.href p) = false) /\ k = Button.onClick p
  end /\
  class_list (Button.element_class (Button.render p)) =
    (class_list Button.baseStyles ++
     class_list (Button.variants (default Button.primary (Button.variant p))) ++
     from_option class_list [] (Button.className p))%list.
Proof.
  split.
  - unfold Button.render.
    destruct (Button.as_ p) as [[]|]; destruct (Button.href p) as [[|c h]|]; cbn; auto.
  - assert (Button.element_class (Button.render p) = Button.classes p) as ->.
    { unfold Button.render.
      by destruct (Button.as_ p) as [[]|]; destruct (Button.href p) as [[|c h]|]. }
    apply Button_classes.
Qed.

(** X5: the classes of a [Container] are its four layout classes
    followed by those of [className], and without [className] its class
    text is exactly the layout text; the classes of a [Card] are its four
    base classes, then the three hover classes exactly when [hover] is
    true, then those of [className]. *)
Theorem primitive_classes (className : option string) (hover : option bool) :
  Container.className None = "mx-auto max-w-7xl px-6 lg:px-8" /\
  class_list (Container.className className) =
    (["mx-auto"; "max-w-7xl"; "px-6"; "lg:px-8"] ++
     from_option class_list [] className)%list /\
  class_list (Card.className className hover) =
    (["rounded-2xl"; "bg-gray-800"; "p-6"; "shadow-lg"] ++
     (if default false hover
      then ["hover:shadow-xl"; "transition-shadow"; "duration-300"] else []) ++
     from_option class_list [] className)%list.
Proof.
  split; [reflexivity|]. split.
  - unfold Container.className. rewrite class_list_cx. cbn [List.map concat].
    by rewrite classes_of_class_prop, app_nil_r.
  - unfold Card.className. rewrite class_list_cx. cbn [List.map concat].
    rewrite classes_of_class_prop, app_nil_r.
    by destruct hover as [[|]|].
Qed.

(** ** Pricing: the toggle and the cards *)

Lemma is_featured_cases (plan : Pricing.Plan) :
  PricingView.is_featured plan = true \/ PricingView.is_featured plan = false.
Proof. destruct (PricingView.is_featured plan); auto. Qed.

(** X6: on every plan's card the "Get Started" control is a link to
    [#contact] with the classes of the primary variant; the secondary
    variant is never applied. On a card that is not featured the class
    list ends with the stray class [variant_text]. *)
Theorem get_started_primary (c : Pricing.BillingCycle) (plan : Pricing.Plan) :
  exists cls,
    PricingView.get_started (PricingView.card c plan) = Button.anchor "#contact" cls /\
    class_list cls =
      (class_list Button.baseStyles ++
       class_list (Button.variants Button.primary) ++
       "w-full" ::
       (if PricingView.is_featured plan then [] else [PricingView.variant_text]))%list /\
    "bg-blue-600" ∈ class_list cls /\
    "bg-gray-700" ∉ class_list cls.
Proof.
  eexists. split; [reflexivity|].
  unfold PricingView.get_started_class.
  destruct (is_featured_cases plan) as [-> | ->].
  - split; [vm_compute; reflexivity|].
    split; apply (bool_decide_unpack _); vm_compute; exact I.
  - split; [vm_compute; reflexivity|].
    split; apply (bool_decide_unpack _); vm_compute; exact I.
Qed.

(** X7: the three marks of a featured plan go together: the "Most
    Popular" badge is shown, the card has the blue border and the wrapper
    is scaled exactly when [featured] is true; [undefined] and [false]
    give none of them. *)
Theorem featured_marks (c : Pricing.BillingCycle) (plan : Pricing.Plan) :
  let v := PricingView.card c plan in
  PricingView.badge v = bool_decide (Pricing.featured plan = Some true) /\
  bool_decide ("border-blue-500" ∈ class_list (PricingView.card_class v))
    = PricingView.badge v /\
  bool_decide ("border-gray-700" ∈ class_list (PricingView.card_class v))
    = negb (PricingView.badge v) /\
  bool_decide ("lg:scale-105" ∈ class_list (PricingView.wrapper_class v))
    = PricingView.badge v.
Proof.
  cbv zeta. unfold PricingView.card, PricingView.is_featured. cbn [PricingView.badge
    PricingView.card_class PricingView.wrapper_class].
  destruct (Pricing.featured plan) as [[|]|]; vm_compute; repeat split.
Qed.

(** X8: in every state exactly one button of the toggle has the active
    style, the one of the current billing cycle, and the figure on every
    card is the price of that cycle. *)
Theorem toggle_shows_selection (s : Pricing.BillingCycle) (plan : Pricing.Plan) :
  bool_decide ("bg-blue-600" ∈ class_list (PricingView.monthly_button s))
    = bool_decide (s = Pricing.monthly) /\
  bool_decide ("bg-blue-600" ∈ class_list (PricingView.annual_button s))
    = bool_decide (s = Pricing.annual) /\
  PricingView.figure (PricingView.card s plan) =
    (if bool_decide ("bg-blue-600" ∈ class_list (PricingView.monthly_button s))
     then Pricing.monthlyPrice plan else Pricing.annualPrice plan).
Proof. destruct s; vm_compute; repeat split. Qed.

Lemma last_cons_default {A} (x : A) (l : list A) (d d' : A) :
  List.last (x :: l) d = List.last (x :: l) d'.
Proof. revert x. induction l as [|y l IH]; intros x; [done|]. apply (IH y). Qed.

(** X9: after any run of clicks on the toggle the billing cycle is the
    one clicked last, or the one before the run when there was no click. *)
Theorem last_click_wins (cs : list Pricing.BillingCycle) (s : Pricing.BillingCycle) :
  PricingView.clicks cs s = List.last cs s.
Proof.
  revert s. induction cs as [|c cs IH]; intros s; [done|].
  cbn [PricingView.clicks fold_left]. unfold PricingView.clicks in IH.
  rewrite IH. unfold Pricing.setBillingCycle.
  destruct cs as [|c' cs]; [done|].
  change (List.last (c :: c' :: cs) s) with (List.last (c' :: cs) s).
  apply last_cons_default.
Qed.

(** ** Cookie consent: frame and sessions *)

Section BannerFrame.

Import CookieBanner.

Lemma mount_cases (e : Env) :
  mount e = (Normal (), (e, false)) \/
  (exists x, mount e = (Throw x, (e, false))) \/
  mount e = (Normal (), (e, js_not (items (localStorage e) !! "ft_cookie_ok"))).
Proof.
  destruct (isBrowser e) eqn:Hb; [|left; by apply mount_server].
  destruct (getItem_raises (localStorage e)) as [x|] eqn:Hr.
  - right; left. exists x. by apply mount_throw.
  - right; right. by apply mount_read.
Qed.

Lemma mount_env (e : Env) : fst (snd (mount e)) = e.
Proof. by destruct (mount_cases e) as [-> | [[x ->] | ->]]. Qed.

Lemma mount_with_window (w : Window) (e : Env) :
  fst (mount (with_window w e)) = fst (mount e) /\
  snd (snd (mount (with_window w e))) = snd (snd (mount e)).
Proof.
  destruct (isBrowser e) eqn:Hb.
  - destruct (getItem_raises (localStorage e)) as [x|] eqn:Hr.
    + by rewrite (mount_throw e x Hb Hr), (mount_throw (with_window w e) x Hb Hr).
    + by rewrite (mount_read e Hb Hr), (mount_read (with_window w e) Hb Hr).
  - by rewrite (mount_server e Hb), (mount_server (with_window w e) Hb).
Qed.

Lemma mount_consented_hidden (e : Env) :
  Session.consented e -> snd (snd (mount e)) = false.
Proof.
  unfold Session.consented. intros Hc.
  destruct (mount_cases e) as [-> | [[x ->] | ->]]; [done..|].
  cbn. unfold js_not. by rewrite Hc.
Qed.

(** What Accept does to the browser. *)
Lemma accept_cases (e : Env) (v : bool) :
  fst (snd (accept (e, v))) = e \/
  (isBrowser e = true /\
   fst (snd (accept (e, v))) =
     with_localStorage
       {| items := <["ft_cookie_ok" := "1"]> (items (localStorage e));
          getItem_raises := getItem_raises (localStorage e);
          setItem_raises := None |} e).
Proof.
  destruct (isBrowser e) eqn:Hb; [|left; by rewrite (accept_server e v Hb)].
  destruct (setItem_raises (localStorage e)) as [x|] eqn:Hw.
  - left. by rewrite (accept_throw e v x Hb Hw).
  - right. split; [done|]. by rewrite (accept_written e v Hb Hw).
Qed.

Lemma accept_consented (e : Env) (v : bool) :
  Session.consented e -> Session.consented (fst (snd (accept (e, v)))).
Proof.
  intros Hc. destruct (accept_cases e v) as [-> | [_ ->]]; [done|].
  unfold Session.consented. cbn. by rewrite lookup_insert_eq.
Qed.

Lemma step_consented (s : Env * bool) (ev : Session.event) :
  Session.consented (fst s) -> Session.consented (fst (Session.step s ev)).
Proof.
  intros Hc. destruct ev as [y|]; cbn [Session.step].
  - by rewrite mount_env.
  - destruct (render (snd s)); [done|].
    destruct s as [e v]. by apply accept_consented.
Qed.

Lemma run_consented (evs : list Session.event) (s : Env * bool) :
  Session.consented (fst s) -> Session.consented (fst (Session.run evs s)).
Proof.
  revert s. induction evs as [|ev evs IH]; intros s Hc; [done|].
  cbn. apply IH. by apply step_consented.
Qed.

End BannerFrame.

(** X10: mounting the banner only reads: whether the effect returns
    early, reads the flag or is left by an exception, the browser (storage
    and window) is afterwards what it was before; and what the mount gives
    does not depend on the window. *)
Theorem banner_mount_reads_only (e : Env) (w : Window) :
  fst (snd (CookieBanner.mount e)) = e /\
  fst (CookieBanner.mount (with_window w e)) = fst (CookieBanner.mount e) /\
  snd (snd (CookieBanner.mount (with_window w e))) = snd (snd (CookieBanner.mount e)).
Proof. split; [apply mount_env | apply mount_with_window]. Qed.

(** X11: Accept touches nothing but the consent entry: every other
    storage entry, the window and [isBrowser] are afterwards what they
    were, whether or not the write happened. *)
Theorem accept_frame (e : Env) (v : bool) (k : string) :
  k <> "ft_cookie_ok" ->
  items (localStorage (fst (snd (CookieBanner.accept (e, v))))) !! k
    = items (localStorage e) !! k /\
  window (fst (snd (CookieBanner.accept (e, v)))) = window e /\
  isBrowser (fst (snd (CookieBanner.accept (e, v)))) = isBrowser e.
Proof.
  intros Hk. destruct (accept_cases e v) as [-> | [_ ->]]; [done|].
  cbn. by rewrite lookup_insert_ne.
Qed.

Lemma accept_frame_witness :
  items (localStorage (fst (snd (CookieBanner.accept
    (browser {[ "theme" := "dark" ]}, true))))) !! "theme" = Some "dark".
Proof.
  destruct (accept_frame (browser {[ "theme" := "dark" ]}) true "theme") as [-> _];
    [discriminate | reflexivity].
Defined.

(** X12: consent is never taken back. Once the consent entry holds a
    non-empty value, it still does after any run of page loads and Accept
    clicks, and every page load, after whatever went before, leaves the
    banner hidden. *)
Theorem consent_is_kept (s : Env * bool) (evs : list Session.event) (y : Q) :
  Session.consented (fst s) ->
  Session.consented (fst (Session.run evs s)) /\
  CookieBanner.render (snd (Session.run (evs ++ [Session.Load y]) s))
    = CookieBanner.Hidden.
Proof.
  intros Hc. split; [by apply run_consented|].
  unfold Session.run. rewrite fold_left_app. cbn [fold_left Session.step].
  rewrite mount_consented_hidden; [done|].
  apply (run_consented evs s) in Hc. exact Hc.
Qed.

Lemma consent_is_kept_witness :
  let s := (browser {[ "ft_cookie_ok" := "1" ]}, true) in
  Session.consented (fst (Session.run [Session.Click; Session.Load 0] s)) /\
  CookieBanner.render
    (snd (Session.run ([Session.Click; Session.Load 0] ++ [Session.Load 40]) s))
    = CookieBanner.Hidden.
Proof.
  apply (consent_is_kept (browser {[ "ft_cookie_ok" := "1" ]}, true)
           [Session.Click; Session.Load 0] 40).
  vm_compute. reflexivity.
Defined.

(** ** The scroll observer: subscriptions *)

Section Subscriptions.

Import Nav.

Lemma remove_listener_Forall (P : EventListener -> Prop) (l : EventListener)
    (ls : list EventListener) :
  Forall P ls -> Forall P (remove_listener l ls).
Proof.
  induction 1 as [|l' ls Hl Hls IH]; cbn; [done|].
  case_bool_decide; [done|]. by constructor.
Qed.

Lemma remove_listener_snoc (l l' : EventListener) (ls : list EventListener) :
  l <> l' -> remove_listener l (ls ++ [l'])%list = (remove_listener l ls ++ [l'])%list.
Proof.
  intros Hne. induction ls as [|x ls IH]; cbn.
  - by rewrite bool_decide_eq_false_2.
  - case_bool_decide; [done|]. by rewrite IH.
Qed.

Lemma add_listener_fresh (l : EventListener) (ls : list EventListener) :
  l ∉ ls -> add_listener l ls = (ls ++ [l])%list.
Proof. intros Hl. unfold add_listener. by rewrite bool_decide_eq_false_2. Qed.

Lemma mount_allocated (e : Env) :
  closures_allocated (window e) -> closures_allocated (window (fst (mount e))).
Proof.
  intros Hw. destruct (isBrowser e) eqn:Hb.
  - rewrite (mount_browser_nav e Hb). unfold closures_allocated. cbn.
    rewrite add_listener_fresh by (by apply closures_allocated_fresh).
    apply Forall_app. split.
    + eapply Forall_impl; [exact Hw|]. cbn. lia.
    + repeat constructor.
  - by rewrite (mount_server_nav e Hb).
Qed.

Lemma scroll_next_closure (y : Q) (s : Env * instance) :
  next_closure (window (fst (scroll y s))) = next_closure (window (fst s)).
Proof.
  unfold scroll. destruct (destroy (snd s)); [case_bool_decide|]; reflexivity.
Qed.

Lemma scroll_allocated (y : Q) (s : Env * instance) :
  closures_allocated (window (fst s)) -> closures_allocated (window (fst (scroll y s))).
Proof.
  unfold closures_allocated. by rewrite scroll_listeners, scroll_next_closure.
Qed.

Lemma unmount_next_closure (s : Env * instance) :
  next_closure (window (unmount s)) = next_closure (window (fst s)).
Proof. unfold unmount, cleanup. by destruct (destroy (snd s)). Qed.

Lemma unmount_allocated (s : Env * instance) :
  closures_allocated (window (fst s)) -> closures_allocated (window (unmount s)).
Proof.
  unfold closures_allocated. rewrite unmount_listeners, unmount_next_closure.
  destruct (destroy (snd s)); [apply remove_listener_Forall | done].
Qed.

Lemma scroll_detached (y : Q) (s : Env * instance) :
  detached s -> snd (scroll y s) = snd s.
Proof.
  intros Hd. unfold scroll. destruct (destroy (snd s)) as [h|] eqn:E; [|done].
  rewrite bool_decide_eq_false_2; [done|]. by apply Hd.
Qed.

Lemma scrolls_detached (ys : list Q) (s : Env * instance) :
  detached s -> snd (scrolls ys s) = snd s.
Proof.
  revert s. induction ys as [|y ys IH]; intros s Hd; [done|].
  cbn [scrolls fold_left]. unfold scrolls in IH. rewrite IH.
  - by apply scroll_detached.
  - intros h. rewrite scroll_destroy, scroll_listeners. apply Hd.
Qed.

(** After mount, events and unmount, the instance is detached. *)
Lemma unmount_detached (e : Env) (ys : list Q) :
  closures_allocated (window e) ->
  detached (unmount (scrolls ys (mount e)), snd (scrolls ys (mount e))).
Proof.
  intros Hw h. cbn [fst snd].
  rewrite unmount_listeners, scrolls_destroy, scrolls_listeners.
  destruct (isBrowser e) eqn:Hb.
  - rewrite (mount_browser_nav e Hb). cbn. intros [= <-].
    rewrite remove_add_listener by (by apply closures_allocated_fresh).
    by apply closures_allocated_fresh.
  - by rewrite (mount_server_nav e Hb).
Qed.


End Subscriptions.

(** X13: the allocator invariant ([closures_allocated]: every callback
    in the listener list of [window] is an earlier closure) holds on a
    freshly loaded page and is kept by mounting a navigation bar, by
    every scroll event and by unmounting. *)
Theorem closures_allocated_kept (e : Env) (i : Nav.instance) (y : Q) :
  closures_allocated (window e) ->
  closures_allocated (window (reload y e)) /\
  closures_allocated (window (fst (Nav.mount e))) /\
  closures_allocated (window (fst (Nav.scroll y (e, i)))) /\
  closures_allocated (window (Nav.unmount (e, i))).
Proof.
  intros Hw. split; [constructor|]. split; [by apply mount_allocated|].
  split; [by apply scroll_allocated | by apply unmount_allocated].
Qed.

Lemma closures_allocated_kept_witness :
  closures_allocated (window (fst (Nav.mount (with_window busy_window (browser ∅))))).
Proof.
  apply (closures_allocated_kept (with_window busy_window (browser ∅))
           {| Nav.scrolled := false; Nav.destroy := None |} 0).
  unfold closures_allocated. cbn. repeat constructor.
Defined.

(** X14: an unmounted navigation bar no longer follows the scroll
    position: scroll events after the unmount leave its [scrolled] cell at
    the value it had when it was unmounted. *)
Theorem unmounted_ignores_scroll (e : Env) (ys zs : list Q) :
  closures_allocated (window e) ->
  Nav.scrolled
    (snd (Nav.scrolls zs
            (Nav.unmount (Nav.scrolls ys (Nav.mount e)),
             snd (Nav.scrolls ys (Nav.mount e)))))
  = Nav.scrolled (snd (Nav.scrolls ys (Nav.mount e))).
Proof.
  intros Hw. rewrite scrolls_detached; [done|]. by apply unmount_detached.
Qed.

Lemma unmounted_ignores_scroll_witness :
  Nav.scrolled
    (snd (Nav.scrolls [0%Q; 5%Q]
            (Nav.unmount (Nav.scrolls [300%Q] (Nav.mount (browser ∅))),
             snd (Nav.scrolls [300%Q] (Nav.mount (browser ∅))))))
  = Nav.scrolled (snd (Nav.scrolls [300%Q] (Nav.mount (browser ∅)))).
Proof.
  apply (unmounted_ignores_scroll (browser ∅) [300%Q] [0%Q; 5%Q]).
  unfold closures_allocated. cbn. constructor.
Defined.

Lemma mount_browser_facts (e : Env) :
  isBrowser e = true ->
  closures_allocated (window e) ->
  Nav.destroy (snd (Nav.mount e)) = Some (next_closure (window e)) /\
  Nav.scrolled (snd (Nav.mount e)) = false /\
  listeners (window (fst (Nav.mount e)))
    = (listeners (window e) ++
       [{| type := "scroll"; callback := next_closure (window e) |}])%list /\
  next_closure (window (fst (Nav.mount e))) = S (next_closure (window e)) /\
  isBrowser (fst (Nav.mount e)) = true.
Proof.
  intros Hb Hw. rewrite (mount_browser_nav e Hb). cbn.
  rewrite add_listener_fresh by (by apply closures_allocated_fresh). done.
Qed.

(** X15: two navigation bars on one window have subscriptions of their
    own. When the first one mounted is unmounted while the second stays,
    the second is still subscribed and follows the scroll position, the
    first no longer does, and unmounting the second as well leaves the
    listener list as it was before both. *)
Theorem two_navs_independent (e : Env) (y : Q) :
  isBrowser e = true ->
  closures_allocated (window e) ->
  let first := Nav.mount e in
  let second := Nav.mount (fst first) in
  let e' := Nav.unmount (fst second, snd first) in
  Nav.subscribed (e', snd second) /\
  Nav.scrolled (snd (Nav.scroll y (e', snd second))) = js_gt y 20 /\
  Nav.scrolled (snd (Nav.scroll y (e', snd first))) = false /\
  listeners (window (Nav.unmount (e', snd second))) = listeners (window e).
Proof.
  intros Hb Hw. cbv zeta.
  destruct (mount_browser_facts e Hb Hw) as (Hd1 & Hs1 & Hl1 & Hn1 & Hb1).
  pose proof (mount_allocated e Hw) as Hw1.
  destruct (mount_browser_facts _ Hb1 Hw1) as (Hd2 & _ & Hl2 & _ & _).
  rewrite Hn1 in Hd2. rewrite Hl1, Hn1 in Hl2.
  pose proof (closures_allocated_fresh (window e) "scroll" Hw) as Hfresh.
  assert ({| type := "scroll"; callback := S (next_closure (window e)) |}
            ∉ listeners (window e)) as Hfresh2.
  { intros Hin. unfold closures_allocated in Hw. rewrite Forall_forall in Hw.
    apply Hw in Hin. cbn in Hin. lia. }
  set (n := next_closure (window e)) in *.
  set (ls := listeners (window e)) in *.
  set (first := Nav.mount e) in *.
  set (second := Nav.mount (fst first)) in *.
  assert (listeners (window (Nav.unmount (fst second, snd first)))
          = (ls ++ [{| type := "scroll"; callback := S n |}])%list) as Hl.
  { rewrite unmount_listeners. cbn [fst snd]. rewrite Hd1, Hl2.
    rewrite remove_listener_snoc by (intros [=]; lia).
    by rewrite <- (add_listener_fresh _ _ Hfresh), remove_add_listener. }
  assert (Nav.subscribed (Nav.unmount (fst second, snd first), snd second)) as Hsub.
  { exists (S n). split; [exact Hd2|]. cbn [fst]. rewrite Hl. set_solver. }
  split; [exact Hsub|]. split; [by apply scroll_subscribed|]. split.
  - rewrite scroll_detached; [exact Hs1|]. intros h. cbn [fst snd].
    rewrite Hd1. intros [= <-]. rewrite Hl. intros Hin.
    apply elem_of_app in Hin as [Hin|Hin]; [by apply Hfresh|].
    apply list_elem_of_singleton in Hin. injection Hin. lia.
  - rewrite unmount_listeners. cbn [fst snd]. rewrite Hd2, Hl.
    by rewrite <- (add_listener_fresh _ _ Hfresh2), remove_add_listener.
Qed.

Lemma two_navs_independent_witness :
  let first := Nav.mount (with_window busy_window (browser ∅)) in
  let second := Nav.mount (fst first) in
  let e' := Nav.unmount (fst second, snd first) in
  Nav.subscribed (e', snd second) /\
  Nav.scrolled (snd (Nav.scroll 50 (e', snd second))) = js_gt 50 20 /\
  Nav.scrolled (snd (Nav.scroll 50 (e', snd first))) = false /\
  listeners (window (Nav.unmount (e', snd second)))
    = listeners (window (with_window busy_window (browser ∅))).
Proof.
  apply (two_navs_independent (with_window busy_window (browser ∅)) 50).
  - reflexivity.
  - unfold closures_allocated. cbn. repeat constructor.
Defined.

